(** * jsocketpp: the Conan recipe [conanfile.py]

    A shallow embedding of the recipe class [jsocketppConan] and of its four
    methods [layout], [build], [package] and [package_info], followed by the
    properties of the recipe.

    The recipe talks to code it does not contain: [cmake_layout] and the
    [CMake] helper of [conan.tools.cmake].  Those are kept abstract.  A
    method is a finite tree of delegated calls and attribute assignments; a
    _driver_ gives the delegated calls their meaning, and may return, raise
    or fail to terminate.

    The source also imports [os]; no line of it uses the module, so it has
    no counterpart below. *)

From stdpp Require Import gmap strings list fin_maps.

Open Scope string_scope.

(** ** Python values *)

(** The values the recipe writes down: string, tuple and list literals,
    and the function object a [def] makes, known by its name. *)
#[warnings="-register-all"]
Inductive pyval : Type :=
| PyStr (s : string)
| PyTuple (items : list pyval)
| PyList (items : list pyval)
| PyFunction (name : string)
| PyNone.


(** ** The class body *)

(** The statements of the body of [class jsocketppConan(ConanFile)], in
    order: ten assignments and four [def]s, each binding one name.
    [settings], [generators] and [exports_sources] are written without
    parentheses in the source; a comma-separated right-hand side is a
    tuple.  A [def] binds its name to a function object; what the four
    functions do is given by the methods of the same names below. *)
Definition class_body : list (string * pyval) :=
  [ ("name", PyStr "jsocketpp");
    ("version", PyStr "0.1.0");
    ("license", PyStr "MIT");
    ("author", PyStr "Your Name <your@email.com>");
    ("url", PyStr "https://github.com/yourusername/jsocketpp");
    ("description", PyStr "A modern C++ socket library.");
    ("topics", PyTuple [PyStr "socket"; PyStr "network"; PyStr "tcp";
                        PyStr "udp"; PyStr "c++"]);
    ("settings", PyTuple [PyStr "os"; PyStr "compiler"; PyStr "build_type";
                          PyStr "arch"]);
    ("generators", PyTuple [PyStr "CMakeToolchain"; PyStr "CMakeDeps"]);
    ("exports_sources", PyTuple [PyStr "CMakeLists.txt"; PyStr "src/*";
                                 PyStr "include/*"]);
    ("layout", PyFunction "layout");
    ("build", PyFunction "build");
    ("package", PyFunction "package");
    ("package_info", PyFunction "package_info") ].

(** Executing a class body binds the names one after the other; a later
    binding of a name replaces an earlier one. *)
Definition bind_all (b : list (string * pyval)) : gmap string pyval :=
  foldl (λ ns kv, <[kv.1 := kv.2]> ns) ∅ b.

(** The namespace of the class. *)
Definition jsocketppConan : gmap string pyval := bind_all class_body.

(** ** The recipe object *)

(** An attribute of the recipe object is named by its path from [self]:
    [self.name] is [["name"]], [self.cpp_info.libs] is [["cpp_info"; "libs"]],
    and the value the tool bound to the axis [os] is [["settings"; "os"]]. *)
Abbreviation path := (list string).

Definition libs_path : path := ["cpp_info"; "libs"].

(** ** Methods as trees of delegated calls *)

Section Recipe.

(** What lies outside the recipe: the environment and file system
    ([World]), the helper object [CMake(self)] returns ([CMakeObj]) and the
    exceptions the helpers raise ([Exn]). *)
Context {World CMakeObj Exn : Type}.

Record State : Type := mkState {
  self : gmap path pyval;
  world : World
}.

(** The calls the recipe delegates, indexed by what they return. *)
Inductive call : Type → Type :=
| cmake_layout : call ()                        (* cmake_layout(self) *)
| CMake : call CMakeObj                         (* CMake(self) *)
| CMake_configure (cmake : CMakeObj) : call ()  (* cmake.configure() *)
| CMake_build (cmake : CMakeObj) : call ()      (* cmake.build() *)
| CMake_install (cmake : CMakeObj) : call ().   (* cmake.install() *)

(** A method body: it returns, or makes a delegated call and goes on with
    what the call returned, or assigns an attribute of the recipe object
    and goes on.  The object the tool passes to a method has its [cpp_info],
    so the one assignment of the recipe cannot fail. *)
Inductive prog (A : Type) : Type :=
| Ret (a : A)
| Call {X : Type} (c : call X) (k : X → prog A)
| Assign (target : path) (v : pyval) (k : prog A).

Arguments Ret {A} a.
Arguments Call {A X} c k.
Arguments Assign {A} target v k.

Fixpoint bind {A B} (p : prog A) (f : A → prog B) : prog B :=
  match p with
  | Ret a => f a
  | Call c k => Call c (λ x, bind (k x) f)
  | Assign t v k => Assign t v (bind k f)
  end.

#[local] Instance prog_ret : MRet prog := @Ret.
#[local] Instance prog_bind : MBind prog := λ A B f p, bind p f.

Definition delegate {X} (c : call X) : prog X := Call c Ret.
Definition assign (target : path) (v : pyval) : prog () :=
  Assign target v (Ret ()).

(** *** The four methods *)

Definition layout : prog () :=
  delegate cmake_layout.

Definition build : prog () :=
  cmake ← delegate CMake;
  delegate (CMake_configure cmake);;
  delegate (CMake_build cmake).

Definition package : prog () :=
  cmake ← delegate CMake;
  delegate (CMake_install cmake).

Definition package_info : prog () :=
  assign libs_path (PyList [PyStr "socket"]).

(** *** Running a method against a driver *)

Inductive outcome (A : Type) : Type :=
| Returns (a : A) (s : State)
| Raises (e : Exn) (s : State)
| Diverges.

Arguments Returns {A} a s.
Arguments Raises {A} e s.
Arguments Diverges {A}.

(** A driver gives every delegated call its effect on the recipe object
    and on the world. *)
Definition Driver : Type := ∀ X, call X → State → outcome X.

Inductive event : Type :=
| Ev {X : Type} (c : call X).

Definition store (target : path) (v : pyval) (s : State) : State :=
  mkState (<[target := v]> (self s)) (world s).

(** [run d p s] executes [p] from [s]: the delegated calls made, in order,
    and how the execution ends.  A call that raises or diverges ends it
    there; the recipe has no [try]. *)
Fixpoint run {A} (d : Driver) (p : prog A) (s : State)
  : list event * outcome A :=
  match p with
  | Ret a => ([], Returns a s)
  | Call c k =>
      match d _ c s with
      | Returns x s' => let r := run d (k x) s' in (Ev c :: r.1, r.2)
      | Raises e s' => ([Ev c], Raises e s')
      | Diverges => ([Ev c], Diverges)
      end
  | Assign t v k => run d k (store t v s)
  end.

(** *** The shape of a method *)

Inductive call_name : Type :=
| n_cmake_layout | n_CMake | n_configure | n_build | n_install.

Definition name_of {X} (c : call X) : call_name :=
  match c with
  | cmake_layout => n_cmake_layout
  | CMake => n_CMake
  | CMake_configure _ => n_configure
  | CMake_build _ => n_build
  | CMake_install _ => n_install
  end.

Definition event_name (ev : event) : call_name :=
  match ev with Ev c => name_of c end.

(** The steps of the build-system driver, as opposed to obtaining the
    driver object and to the layout helper. *)
Definition is_step (n : call_name) : bool :=
  match n with
  | n_configure | n_build | n_install => true
  | n_cmake_layout | n_CMake => false
  end.

(** A statement of a method body: a delegated call or an assignment. *)
Inductive stmt : Type :=
| SCall (n : call_name)
| SAssign (target : path) (v : pyval).

(** [straight_line p body]: whatever the delegated calls return, [p]
    executes the statements [body], one after the other, and then returns;
    it has no loop and takes no decision. *)
Inductive straight_line {A} : prog A → list stmt → Prop :=
| sl_ret a :
    straight_line (Ret a) []
| sl_call {X} (c : call X) k body :
    (∀ x, straight_line (k x) body) →
    straight_line (Call c k) (SCall (name_of c) :: body)
| sl_assign t v k body :
    straight_line k body →
    straight_line (Assign t v k) (SAssign t v :: body).

Definition calls_of (body : list stmt) : list call_name :=
  omap (λ st, match st with SCall n => Some n | SAssign _ _ => None end) body.

Definition targets_of (body : list stmt) : list path :=
  omap (λ st, match st with SAssign t _ => Some t | SCall _ => None end) body.

(** *** The bodies of the four methods, statement by statement *)

Definition body_of_layout : list stmt := [SCall n_cmake_layout].
Definition body_of_build : list stmt :=
  [SCall n_CMake; SCall n_configure; SCall n_build].
Definition body_of_package : list stmt := [SCall n_CMake; SCall n_install].
Definition body_of_package_info : list stmt :=
  [SAssign libs_path (PyList [PyStr "socket"])].

(** The methods of the recipe, each with its body. *)
Definition methods : list (prog () * list stmt) :=
  [ (layout, body_of_layout); (build, body_of_build);
    (package, body_of_package); (package_info, body_of_package_info) ].

(** *** Reading off an outcome *)

Definition final {A} (o : outcome A) : option State :=
  match o with
  | Returns _ s | Raises _ s => Some s
  | Diverges => None
  end.

Definition returned {A} (o : outcome A) : bool :=
  match o with Returns _ _ => true | _ => false end.

Definition raised {A} (o : outcome A) : bool :=
  match o with Raises _ _ => true | _ => false end.

Definition diverged {A} (o : outcome A) : bool :=
  match o with Diverges => true | _ => false end.

(** [self.cpp_info.libs] *)
Definition cpp_info_libs (s : State) : option pyval := self s !! libs_path.



(** The driver always comes back, normally or with an exception. *)
Definition terminating (d : Driver) : Prop :=
  ∀ X (c : call X) s, diverged (d X c s) = false.

(** [n] consecutive invocations of a method; the first that does not return
    ends the series. *)
Fixpoint invoke_n (d : Driver) (n : nat) (p : prog ()) (s : State) : outcome () :=
  match n with
  | 0 => Returns () s
  | S n' =>
      match (run d p s).2 with
      | Returns _ s' => invoke_n d n' p s'
      | o => o
      end
  end.

(** *** Methods one after the other *)

(** [p] and then [q], as two statements in a row. *)
Definition followed_by (p q : prog ()) : prog () := p;; q.

(** The driver object a step was invoked on. *)
Definition cmake_of (ev : event) : option CMakeObj :=
  match ev with
  | Ev c =>
      match c with
      | CMake_configure o | CMake_build o | CMake_install o => Some o
      | cmake_layout | CMake => None
      end
  end.

Definition map_state {A} (f : State → State) (o : outcome A) : outcome A :=
  match o with
  | Returns a s => Returns a (f s)
  | Raises e s => Raises e (f s)
  | Diverges => Diverges
  end.

(** The driver neither reads nor writes [cpp_info.libs]: with another value
    there, each call does the same and leaves that value in place. *)
Definition libs_blind (d : Driver) : Prop :=
  ∀ X (c : call X) s v,
    d X c (store libs_path v s) = map_state (store libs_path v) (d X c s).

End Recipe.

Arguments Ret {CMakeObj A} a.
Arguments Call {CMakeObj A X} c k.
Arguments Assign {CMakeObj A} target v k.
Arguments Returns {World Exn A} a s.
Arguments Raises {World Exn A} e s.
Arguments Diverges {World Exn A}.

(** ** What the spec lists *)

(** The fields the spec's interface section lists as declared metadata:
    name, version, license, author, homepage URL, descriptive text, topic
    tags, and the axes that key build configurations. *)
Definition spec_declared_metadata : list string :=
  ["name"; "version"; "license"; "author"; "url"; "description"; "topics";
   "settings"].


(** ** Sample worlds and drivers *)

(** A world that only remembers the command lines run in it, a helper
    object without content, and exceptions that are their message.  The
    sample recipe object shows the names of the class through [self], some
    values for the four settings axes, and an empty [cpp_info.libs]. *)
Definition sample_state : @State (list string) :=
  mkState
    (<[libs_path := PyList []]>
       (<[["settings"; "arch"] := PyStr "x86_64"]>
          (<[["settings"; "build_type"] := PyStr "Release"]>
             (<[["settings"; "compiler"] := PyStr "gcc"]>
                (<[["settings"; "os"] := PyStr "Linux"]>
                   (foldl (λ o kv, <[[kv.1] := kv.2]> o) ∅ class_body))))))
    [].

Definition ran (line : string) (s : @State (list string)) : @State (list string) :=
  mkState (self s) (world s ++ [line])%list.

(** A driver whose every call succeeds: the layout helper sets the build
    folder of the recipe object, and each step records its command line. *)
Definition sample_driver : @Driver (list string) () string :=
  λ X c,
    match c in call X return State → outcome X with
    | cmake_layout =>
        λ s, Returns () (mkState (<[["folders"; "build"] := PyStr "build"]> (self s))
                           (world s))
    | CMake => λ s, Returns () s
    | CMake_configure _ => λ s, Returns () (ran "cmake -S . -B build" s)
    | CMake_build _ => λ s, Returns () (ran "cmake --build build" s)
    | CMake_install _ => λ s, Returns () (ran "cmake --install build" s)
    end.


(** A driver that cannot be set up: [CMake(self)] finds no presets file and
    raises; its steps, were they ever reached, would succeed. *)
Definition no_presets_driver : @Driver (list string) () string :=
  λ X c,
    match c in call X return State → outcome X with
    | CMake => λ s, Raises "CMakePresets.json was not found" s
    | c' => sample_driver _ c'
    end.

(** A driver whose build step never comes back. *)
Definition hanging_driver : @Driver (list string) () string :=
  λ X c,
    match c in call X return State → outcome X with
    | CMake_build _ => λ _, Diverges
    | c' => sample_driver _ c'
    end.

(** A driver whose configure step fails. *)
Definition broken_configure_driver : @Driver (list string) () string :=
  λ X c,
    match c in call X return State → outcome X with
    | CMake_configure _ => λ s, Raises "CMake Error" (ran "cmake -S . -B build" s)
    | c' => sample_driver _ c'
    end.

(** A driver that numbers its helper objects: [CMake(self)] returns the
    number of command lines run so far. *)
Definition counting_driver : @Driver (list string) nat string :=
  λ X c,
    match c in call X return State → outcome X with
    | cmake_layout => λ s, Returns () s
    | CMake => λ s, Returns (length (world s)) s
    | CMake_configure _ => λ s, Returns () (ran "cmake -S . -B build" s)
    | CMake_build _ => λ s, Returns () (ran "cmake --build build" s)
    | CMake_install _ => λ s, Returns () (ran "cmake --install build" s)
    end.

(** ** Proof steps *)

(** Settles a hypothesis [H] that an event is among explicitly listed ones:
    events of different calls are told apart by [event_name], and the two
    driver objects of a same step are identified through [cmake_of]. *)
Ltac event_among H :=
  rewrite ?elem_of_cons, ?elem_of_nil in H;
  repeat (destruct H as [H | H];
          [try (by apply (f_equal event_name) in H);
           try (apply (f_equal cmake_of) in H; simpl in H; injection H as ->) |]);
  try done.

(** * Properties *)

Section Properties.

Context {World CMakeObj Exn : Type}.

Implicit Types (d : @Driver World CMakeObj Exn) (s : @State World).

(** ** The bodies of the four methods *)

Lemma layout_straight : straight_line (@layout CMakeObj) body_of_layout.
Proof. apply (sl_call cmake_layout). intros []. constructor. Qed.

Lemma build_straight : straight_line (@build CMakeObj) body_of_build.
Proof.
  apply (sl_call CMake). intros cmake.
  apply (sl_call (CMake_configure cmake)). intros [].
  apply (sl_call (CMake_build cmake)). intros []. constructor.
Qed.

Lemma package_straight : straight_line (@package CMakeObj) body_of_package.
Proof.
  apply (sl_call CMake). intros cmake.
  apply (sl_call (CMake_install cmake)). intros []. constructor.
Qed.

Lemma package_info_straight :
  straight_line (@package_info CMakeObj) body_of_package_info.
Proof. repeat constructor. Qed.

Lemma methods_straight (p : @prog CMakeObj ()) body :
  (p, body) ∈ methods → straight_line p body.
Proof.
  unfold methods. rewrite !elem_of_cons, elem_of_nil.
  intros [E | [E | [E | [E | []]]]]; inversion E; subst;
    auto using layout_straight, build_straight, package_straight,
      package_info_straight.
Qed.

(** ** Runs of straight-line code *)

(** The calls of a run are an initial part of the calls of the body. *)
Lemma run_calls_prefix {A} d (p : prog A) body s :
  straight_line p body →
  map event_name (run d p s).1 `prefix_of` calls_of body.
Proof.
  intros Hsl. revert s.
  induction Hsl as [a | X c k body _ IH | t v k body _ IH]; intros s; simpl.
  - apply prefix_nil.
  - destruct (d X c s) as [x s' | e s' | ]; simpl.
    + apply prefix_cons, IH.
    + apply prefix_cons, prefix_nil.
    + apply prefix_cons, prefix_nil.
  - apply IH.
Qed.

(** A run that returns has made all the calls of the body. *)
Lemma run_calls_returned {A} d (p : prog A) body s :
  straight_line p body →
  returned (run d p s).2 = true →
  map event_name (run d p s).1 = calls_of body.
Proof.
  intros Hsl. revert s.
  induction Hsl as [a | X c k body _ IH | t v k body _ IH]; intros s; simpl.
  - done.
  - destruct (d X c s) as [x s' | e s' | ]; simpl; try done.
    intros Hr. f_equal. by apply IH.
  - apply IH.
Qed.

(** A run can only diverge inside a delegated call: the last call made. *)
Lemma run_diverged {A} d (p : prog A) s :
  diverged (run d p s).2 = true →
  ∃ X (c : call X) s1, last (run d p s).1 = Some (Ev c) ∧ d X c s1 = Diverges.
Proof.
  revert s. induction p as [a | X c k IH | t v k IH]; intros s; simpl.
  - done.
  - destruct (d X c s) as [x s' | e s' | ] eqn:E; simpl; try done.
    + intros Hd. destruct (IH x s' Hd) as (Y & c' & s1 & Hl & Hc).
      exists Y, c', s1. split; [| done].
      destruct (run d (k x) s').1; [done | by rewrite last_cons, Hl].
    + intros _. by exists X, c, s.
  - apply IH.
Qed.

Lemma run_terminating {A} d (p : prog A) s :
  terminating d → diverged (run d p s).2 = false.
Proof.
  intros Ht. destruct (diverged (run d p s).2) eqn:E; [| done].
  destruct (run_diverged _ _ _ E) as (X & c & s1 & _ & Hc).
  specialize (Ht X c s1). by rewrite Hc in Ht.
Qed.


Lemma store_store t v w s : store t v (store t w s) = store t v s.
Proof. unfold store; simpl. by rewrite insert_insert_eq. Qed.

Lemma run_package_info d s :
  run d package_info s = ([], Returns () (store libs_path (PyList [PyStr "socket"]) s)).
Proof. reflexivity. Qed.

(** ** The recipe's methods *)

(** C1.  Every invocation of [package_info] returns, and the package
    information it leaves exposes one library, named socket:
    [cpp_info.libs] is the one-element list [["socket"]]. *)
Theorem package_info_exposes_socket d s :
  ∃ s', (run d package_info s).2 = Returns () s' ∧
        cpp_info_libs s' = Some (PyList [PyStr "socket"]).
Proof.
  rewrite run_package_info. eexists. split; [done |].
  unfold cpp_info_libs; simpl. apply lookup_insert_eq.
Qed.

(** C3.  The recipe exports exactly the build configuration file
    [CMakeLists.txt], the sources [src/*] and the headers [include/*], and
    [layout] is the one call [cmake_layout(self)]: it makes that call and
    ends as that call ends. *)
Theorem exports_sources_and_layout :
  jsocketppConan !! "exports_sources"
    = Some (PyTuple [PyStr "CMakeLists.txt"; PyStr "src/*"; PyStr "include/*"])
  ∧ straight_line (@layout CMakeObj) [SCall n_cmake_layout]
  ∧ ∀ d s, run d layout s = ([Ev cmake_layout], d _ cmake_layout s).
Proof.
  split; [reflexivity |]. split; [apply layout_straight |].
  intros d s. simpl. by destruct (d _ cmake_layout s) as [[] s' | e s' | ].
Qed.

(** C4.  The body of [build] is: obtain the driver object, then its steps
    configure and build, in that order; the body of [package] is: obtain
    the driver object, then its step install.  Neither body holds another
    statement.  In a run the calls made are an initial part of that
    sequence, and all of it when the method returns, the steps being those
    of the object [CMake(self)] returned. *)
Theorem build_and_package_steps d s :
  straight_line (@build CMakeObj) [SCall n_CMake; SCall n_configure; SCall n_build]
  ∧ straight_line (@package CMakeObj) [SCall n_CMake; SCall n_install]
  ∧ List.filter is_step (calls_of body_of_build) = [n_configure; n_build]
  ∧ List.filter is_step (calls_of body_of_package) = [n_install]
  ∧ map event_name (run d build s).1 `prefix_of` [n_CMake; n_configure; n_build]
  ∧ map event_name (run d package s).1 `prefix_of` [n_CMake; n_install]
  ∧ (returned (run d build s).2 = true →
       ∃ cmake, (run d build s).1
                = [Ev CMake; Ev (CMake_configure cmake); Ev (CMake_build cmake)])
  ∧ (returned (run d package s).2 = true →
       ∃ cmake, (run d package s).1 = [Ev CMake; Ev (CMake_install cmake)]).
Proof.
  split; [apply build_straight |]. split; [apply package_straight |].
  split; [reflexivity |]. split; [reflexivity |].
  split; [apply (run_calls_prefix d build body_of_build s), build_straight |].
  split; [apply (run_calls_prefix d package body_of_package s), package_straight |].
  split; simpl.
  - destruct (d _ CMake s) as [cmake s1 | |]; simpl; try done.
    destruct (d _ (CMake_configure cmake) s1) as [[] s2 | |]; simpl; try done.
    destruct (d _ (CMake_build cmake) s2) as [[] s3 | |]; simpl; try done.
    intros _. by exists cmake.
  - destruct (d _ CMake s) as [cmake s1 | |]; simpl; try done.
    destruct (d _ (CMake_install cmake) s1) as [[] s2 | |]; simpl; try done.
    intros _. by exists cmake.
Qed.

(** C5, as amended.  [build] and [package] raise exactly when one of the
    calls they delegate raises: obtaining the driver object [CMake(self)],
    or one of its steps configure, build and install; the exception and the
    state are those of the call that raised. *)
Theorem build_and_package_raise_iff d s e s' :
  ((run d build s).2 = Raises e s' ↔
     d _ CMake s = Raises e s'
     ∨ (∃ cmake s1, d _ CMake s = Returns cmake s1
          ∧ d _ (CMake_configure cmake) s1 = Raises e s')
     ∨ (∃ cmake s1 s2, d _ CMake s = Returns cmake s1
          ∧ d _ (CMake_configure cmake) s1 = Returns () s2
          ∧ d _ (CMake_build cmake) s2 = Raises e s'))
  ∧ ((run d package s).2 = Raises e s' ↔
       d _ CMake s = Raises e s'
       ∨ (∃ cmake s1, d _ CMake s = Returns cmake s1
            ∧ d _ (CMake_install cmake) s1 = Raises e s')).
Proof.
  split; simpl.
  - destruct (d _ CMake s) as [cmake s1 | e1 s1 |] eqn:E0; simpl;
      [destruct (d _ (CMake_configure cmake) s1) as [[] s2 | e2 s2 |] eqn:E1;
       simpl;
       [destruct (d _ (CMake_build cmake) s2) as [[] s3 | e3 s3 |] eqn:E2;
        simpl | ..] | ..];
      (split; [intros Hr; try done; injection Hr as <- <-; eauto 10 |]);
      intros [H0 | [(c & t1 & H0 & H1) | (c & t1 & t2 & H0 & H1 & H2)]];
      try congruence;
      injection H0 as <- <-; rewrite ?E1 in *; try congruence;
      injection H1 as <-; congruence.
  - destruct (d _ CMake s) as [cmake s1 | e1 s1 |] eqn:E0; simpl;
      [destruct (d _ (CMake_install cmake) s1) as [[] s2 | e2 s2 |] eqn:E1;
       simpl | ..];
      (split; [intros Hr; try done; injection Hr as <- <-; eauto 10 |]);
      intros [H0 | (c & t1 & H0 & H1)];
      try congruence;
      injection H0 as <- <-; congruence.
Qed.

Lemma operations_are_methods (op : @prog CMakeObj ()) :
  op ∈ [layout; build; package; package_info] →
  ∃ body, (op, body) ∈ methods.
Proof.
  rewrite !elem_of_cons, elem_of_nil. unfold methods.
  intros [-> | [-> | [-> | [-> | []]]]]; eexists;
    rewrite !elem_of_cons; eauto 6.
Qed.



(** C7.  Each method is a fixed, finite sequence of statements, taken one
    after the other whatever the delegated calls return: one call for
    [layout], three for [build], two for [package], one assignment for
    [package_info].  A run makes at most three calls; it can fail to
    terminate only inside a delegated call, and so terminates under a
    driver whose calls terminate. *)
Theorem methods_straight_line_and_terminate :
  straight_line (@layout CMakeObj) [SCall n_cmake_layout]
  ∧ straight_line (@build CMakeObj) [SCall n_CMake; SCall n_configure; SCall n_build]
  ∧ straight_line (@package CMakeObj) [SCall n_CMake; SCall n_install]
  ∧ straight_line (@package_info CMakeObj)
      [SAssign ["cpp_info"; "libs"] (PyList [PyStr "socket"])]
  ∧ ∀ d s (op : prog ()),
      op ∈ [layout; build; package; package_info] →
      (length (run d op s).1 ≤ 3)%nat
      ∧ (diverged (run d op s).2 = true →
           ∃ X (c : call X) s1,
             last (run d op s).1 = Some (Ev c) ∧ d X c s1 = Diverges)
      ∧ (terminating d → diverged (run d op s).2 = false).
Proof.
  split; [apply layout_straight |]. split; [apply build_straight |].
  split; [apply package_straight |]. split; [apply package_info_straight |].
  intros d s op Hop. split; [| split].
  - destruct (operations_are_methods op Hop) as [body Hb].
    pose proof (prefix_length _ _
      (run_calls_prefix d op body s (methods_straight _ _ Hb))) as Hl.
    rewrite length_map in Hl. etrans; [exact Hl |].
    clear Hl. revert Hb. unfold methods. rewrite !elem_of_cons, elem_of_nil.
    intros [E | [E | [E | [E | []]]]]; inversion E; subst; simpl; lia.
  - apply run_diverged.
  - apply run_terminating.
Qed.

(** C8.  [package_info] overwrites: whatever [cpp_info.libs] held before,
    after one or more consecutive invocations it is [["socket"]], and the
    recipe object is the one a single invocation leaves. *)
Theorem package_info_idempotent d s (prior : pyval) (n : nat) :
  invoke_n d (S n) package_info (store libs_path prior s)
    = Returns () (store libs_path (PyList [PyStr "socket"]) s)
  ∧ cpp_info_libs (store libs_path (PyList [PyStr "socket"]) s)
    = Some (PyList [PyStr "socket"])
  ∧ invoke_n d (S n) package_info s = invoke_n d 1 package_info s.
Proof.
  assert (Hn : ∀ m t, invoke_n d (S m) package_info t
                      = Returns () (store libs_path (PyList [PyStr "socket"]) t)).
  { induction m as [| m IH]; intros t; [done |].
    change (invoke_n d (S (S m)) package_info t)
      with (invoke_n d (S m) package_info
              (store libs_path (PyList [PyStr "socket"]) t)).
    by rewrite IH, store_store. }
  split; [by rewrite Hn, store_store |].
  split; [apply lookup_insert_eq |]. by rewrite !Hn.
Qed.

(** C9.  [package_info] makes no delegated call and reads nothing: under
    any two drivers and from any two states, whatever their worlds and
    settings values, it returns with the same [cpp_info.libs]; it leaves the
    world and every other attribute as they were. *)
Theorem package_info_deterministic d1 d2 s1 s2 :
  (run d1 package_info s1).1 = []
  ∧ ∃ s1' s2',
      (run d1 package_info s1).2 = Returns () s1'
      ∧ (run d2 package_info s2).2 = Returns () s2'
      ∧ cpp_info_libs s1' = cpp_info_libs s2'
      ∧ world s1' = world s1
      ∧ ∀ t, t ≠ libs_path → self s1' !! t = self s1 !! t.
Proof.
  split; [done |]. rewrite !run_package_info. do 2 eexists.
  split; [done |]. split; [done |]. split; [| split; [done |]].
  - unfold cpp_info_libs; simpl. by rewrite !lookup_insert_eq.
  - intros t Ht. simpl. by rewrite lookup_insert_ne.
Qed.

End Properties.

(** ** The class attributes *)

(** C2, as amended.  The class declares each field the spec lists as
    metadata, once: [name], [version], [license], [author], [url] (the
    homepage), [description], [topics] and [settings], the last a tuple of
    exactly the axes [os], [compiler], [build_type] and [arch].  Besides
    them it declares exactly six more names: the data attributes
    [generators] and [exports_sources] and the methods [layout], [build],
    [package] and [package_info]. *)
Theorem declared_metadata :
  map fst class_body
    = (spec_declared_metadata
       ++ ["generators"; "exports_sources";
           "layout"; "build"; "package"; "package_info"])%list
  ∧ NoDup (map fst class_body)
  ∧ jsocketppConan !! "name" = Some (PyStr "jsocketpp")
  ∧ jsocketppConan !! "version" = Some (PyStr "0.1.0")
  ∧ jsocketppConan !! "license" = Some (PyStr "MIT")
  ∧ jsocketppConan !! "author" = Some (PyStr "Your Name <your@email.com>")
  ∧ jsocketppConan !! "url" = Some (PyStr "https://github.com/yourusername/jsocketpp")
  ∧ jsocketppConan !! "description" = Some (PyStr "A modern C++ socket library.")
  ∧ jsocketppConan !! "topics"
    = Some (PyTuple [PyStr "socket"; PyStr "network"; PyStr "tcp"; PyStr "udp";
                     PyStr "c++"])
  ∧ jsocketppConan !! "settings"
    = Some (PyTuple [PyStr "os"; PyStr "compiler"; PyStr "build_type"; PyStr "arch"])
  ∧ jsocketppConan !! "generators"
    = Some (PyTuple [PyStr "CMakeToolchain"; PyStr "CMakeDeps"])
  ∧ jsocketppConan !! "exports_sources"
    = Some (PyTuple [PyStr "CMakeLists.txt"; PyStr "src/*"; PyStr "include/*"])
  ∧ ∀ f, is_Some (jsocketppConan !! f) ↔
         f ∈ spec_declared_metadata
         ∨ f ∈ ["generators"; "exports_sources";
                "layout"; "build"; "package"; "package_info"].
Proof.
  split; [reflexivity |]. split; [compute_done |].
  repeat (split; [reflexivity |]).
  intros f. rewrite <- elem_of_dom.
  replace (dom jsocketppConan) with (list_to_set (C := gset string) (map fst class_body))
    by (vm_compute; reflexivity).
  rewrite elem_of_list_to_set. simpl. unfold spec_declared_metadata.
  rewrite !elem_of_cons, !elem_of_nil. split.
  - intros H. repeat destruct H as [-> | H]; try done; auto 20.
  - intros [H | H]; repeat destruct H as [-> | H]; try done; auto 20.
Qed.

(** C2, the claim as first stated, fails: the class declares [generators],
    [exports_sources] and [build], none of which is among the fields the
    spec lists. *)
Lemma declared_beyond_the_listed_metadata :
  is_Some (jsocketppConan !! "generators")
  ∧ ("generators" ∉ spec_declared_metadata)
  ∧ is_Some (jsocketppConan !! "exports_sources")
  ∧ ("exports_sources" ∉ spec_declared_metadata)
  ∧ is_Some (jsocketppConan !! "build")
  ∧ ("build" ∉ spec_declared_metadata).
Proof.
  assert (Hnot : ∀ f, f ∈ spec_declared_metadata →
                      f ≠ "generators" ∧ f ≠ "exports_sources" ∧ f ≠ "build").
  { intros f. unfold spec_declared_metadata. rewrite !elem_of_cons, elem_of_nil.
    intros H. repeat destruct H as [-> | H]; done. }
  repeat split; try (by eexists); intros H; apply Hnot in H;
    by destruct H as (? & ? & ?).
Qed.

(** ** The sample drivers at work *)


Lemma sample_driver_terminating : terminating sample_driver.
Proof. intros X c s. by destruct c. Qed.

(** C4 at the sample driver: [build] returns after the three calls and has
    run configure, then build. *)
Lemma build_and_package_steps_witness :
  returned (run sample_driver build sample_state).2 = true
  ∧ (run sample_driver build sample_state).1
    = [Ev CMake; Ev (CMake_configure ()); Ev (CMake_build ())]
  ∧ world <$> final (run sample_driver build sample_state).2
    = Some ["cmake -S . -B build"; "cmake --build build"].
Proof.
  split; [reflexivity |]. split; [| reflexivity].
  destruct (build_and_package_steps sample_driver sample_state)
    as (_ & _ & _ & _ & _ & _ & Hbuild & _).
  destruct (Hbuild eq_refl) as [[] Htrace]. exact Htrace.
Defined.

(** C5, the claim as first stated, fails: with a driver that cannot be set
    up, [build] and [package] raise although none of configure, build and
    install raises, in any state. *)
Lemma build_raises_though_no_step_raises :
  (run no_presets_driver build sample_state).2
    = Raises "CMakePresets.json was not found" sample_state
  ∧ (run no_presets_driver package sample_state).2
    = Raises "CMakePresets.json was not found" sample_state
  ∧ ∀ cmake s,
      raised (no_presets_driver _ (CMake_configure cmake) s) = false
      ∧ raised (no_presets_driver _ (CMake_build cmake) s) = false
      ∧ raised (no_presets_driver _ (CMake_install cmake) s) = false.
Proof. repeat split; reflexivity. Qed.

(** C5 at a driver whose configure step fails: [build] raises that error,
    in the state the step left, and never reaches the build step. *)
Lemma build_and_package_raise_iff_witness :
  (run broken_configure_driver build sample_state).2
    = Raises "CMake Error" (ran "cmake -S . -B build" sample_state)
  ∧ map event_name (run broken_configure_driver build sample_state).1
    = [n_CMake; n_configure].
Proof.
  split; [| reflexivity].
  apply (build_and_package_raise_iff broken_configure_driver sample_state).
  right; left. by exists (), sample_state.
Defined.



(** C7 at the sample drivers: [build] terminates under the sample driver,
    and under the hanging driver it diverges in its last call, the build
    step. *)
Lemma methods_straight_line_and_terminate_witness :
  diverged (run sample_driver build sample_state).2 = false
  ∧ diverged (run hanging_driver build sample_state).2 = true
  ∧ map event_name (run hanging_driver build sample_state).1
    = [n_CMake; n_configure; n_build]
  ∧ ∃ X (c : call X) s1,
      last (run hanging_driver build sample_state).1 = Some (Ev c)
      ∧ hanging_driver X c s1 = Diverges.
Proof.
  destruct (@methods_straight_line_and_terminate (list string) () string)
    as (_ & _ & _ & _ & H).
  assert (Hop : @build () ∈ [layout; build; package; package_info])
    by repeat constructor.
  split; [| split; [reflexivity | split; [reflexivity |]]].
  - apply (H sample_driver sample_state build Hop), sample_driver_terminating.
  - by apply (H hanging_driver sample_state build Hop).
Defined.

(** * Methods in succession and what a method never does *)

Section Succession.

Context {World CMakeObj Exn : Type}.

Implicit Types (d : @Driver World CMakeObj Exn) (s : @State World).

(** A run of [bind p f] is the run of [p], then of what follows from the
    state [p] left; what follows does not start unless [p] returns. *)
Lemma run_bind {A B} d (p : prog A) (f : A → prog B) s :
  run d (bind p f) s
  = match (run d p s).2 with
    | Returns a s' =>
        (((run d p s).1 ++ (run d (f a) s').1)%list, (run d (f a) s').2)
    | Raises e s' => ((run d p s).1, Raises e s')
    | Diverges => ((run d p s).1, Diverges)
    end.
Proof.
  revert s. induction p as [a | X c k IH | t v k IH]; intros s; simpl.
  - by destruct (run d (f a) s).
  - destruct (d X c s) as [x s1 | e s1 |]; simpl; [| done..].
    rewrite IH. by destruct (run d (k x) s1).2.
  - apply IH.
Qed.

Lemma run_followed_by d (p q : prog ()) s :
  run d (followed_by p q) s
  = match (run d p s).2 with
    | Returns _ s' => (((run d p s).1 ++ (run d q s').1)%list, (run d q s').2)
    | Raises e s' => ((run d p s).1, Raises e s')
    | Diverges => ((run d p s).1, Diverges)
    end.
Proof. apply (run_bind d p (λ _, q)). Qed.


Lemma delegating_methods (op : @prog CMakeObj ()) :
  op ∈ [layout; build; package] →
  ∃ body, straight_line op body ∧ targets_of body = [].
Proof.
  rewrite !elem_of_cons, elem_of_nil.
  intros [-> | [-> | [-> | []]]]; eexists;
    eauto using layout_straight, build_straight, package_straight.
Qed.

(** A body without assignment, under a driver blind to [cpp_info.libs],
    runs the same whatever that attribute holds. *)
Lemma run_store_blind {A} d (p : prog A) body v s :
  libs_blind d →
  straight_line p body →
  targets_of body = [] →
  run d p (store libs_path v s)
  = ((run d p s).1, map_state (store libs_path v) (run d p s).2).
Proof.
  intros Hd Hsl. revert s.
  induction Hsl as [a | X c k body _ IH | t w k body _ IH]; intros s Ht; simpl.
  - done.
  - rewrite Hd. destruct (d X c s) as [x s1 | e s1 |]; simpl; [| done..].
    by rewrite IH.
  - done.
Qed.

(** X1.  A step is never reached past a failure: a run of [build] invokes
    configure only on the object that [CMake(self)] returned, and the build
    step only on that object and after its configure returned; a run of
    [package] invokes install only on the object [CMake(self)] returned. *)
Theorem steps_follow_success d s (cmake : CMakeObj) :
  (Ev (CMake_configure cmake) ∈ (run d build s).1 →
     ∃ s1, d _ CMake s = Returns cmake s1)
  ∧ (Ev (CMake_build cmake) ∈ (run d build s).1 →
       ∃ s1 s2, d _ CMake s = Returns cmake s1
                ∧ d _ (CMake_configure cmake) s1 = Returns () s2)
  ∧ (Ev (CMake_install cmake) ∈ (run d package s).1 →
       ∃ s1, d _ CMake s = Returns cmake s1).
Proof.
  repeat split; simpl;
    destruct (d _ CMake s) as [c s1 | e1 s1 |] eqn:E0; simpl;
    try (intros H; by event_among H).
  - destruct (d _ (CMake_configure c) s1) as [[] s2 | e2 s2 |]; simpl;
      [destruct (d _ (CMake_build c) s2) as [[] s3 | e3 s3 |]; simpl | ..];
      intros H; event_among H; eauto.
  - destruct (d _ (CMake_configure c) s1) as [[] s2 | e2 s2 |] eqn:E1; simpl;
      [destruct (d _ (CMake_build c) s2) as [[] s3 | e3 s3 |]; simpl | ..];
      intros H; event_among H; eauto.
  - destruct (d _ (CMake_install c) s1) as [[] s2 | e2 s2 |]; simpl;
      intros H; event_among H; eauto.
Qed.



(** X3.  Under a driver that neither reads nor writes [cpp_info.libs],
    [package_info] may come before or after [layout], [build] or [package]:
    the delegated calls made are the same, and when the other method
    returns the two orders end in the same state. *)
Theorem package_info_commutes d s (op : prog ()) :
  op ∈ [layout; build; package] →
  libs_blind d →
  (run d (followed_by package_info op) s).1
    = (run d (followed_by op package_info) s).1
  ∧ (returned (run d op s).2 = true →
       run d (followed_by package_info op) s
       = run d (followed_by op package_info) s).
Proof.
  intros Hop Hd. destruct (delegating_methods op Hop) as (body & Hsl & Ht).
  rewrite run_followed_by, run_package_info. cbn [fst snd app].
  rewrite (run_store_blind d op body _ s Hd Hsl Ht), run_followed_by.
  destruct (run d op s) as [tr [[] s1 | e s1 |]]; simpl;
    rewrite ?app_nil_r; done.
Qed.

(** X4.  [build] and then [package]: when [build] does not return,
    [package] does not start; when both return, [CMake(self)] is called
    twice: first in the initial state, giving the object that configure and
    build run on, then in the state [build] left, giving the object that
    install runs on. *)
Theorem build_then_package d s :
  (returned (run d build s).2 = false →
     run d (followed_by build package) s = run d build s)
  ∧ (returned (run d (followed_by build package) s).2 = true →
       ∃ c1 c2 t1 s1 s2,
         d _ CMake s = Returns c1 t1
         ∧ (run d build s).2 = Returns () s1
         ∧ d _ CMake s1 = Returns c2 s2
         ∧ (run d (followed_by build package) s).1
           = [Ev CMake; Ev (CMake_configure c1); Ev (CMake_build c1);
              Ev CMake; Ev (CMake_install c2)]).
Proof.
  rewrite run_followed_by. split.
  - by destruct (run d build s) as [tr [[] s1 | e s1 |]].
  - simpl.
    destruct (d _ CMake s) as [c1 t1 | |]; simpl; try done.
    destruct (d _ (CMake_configure c1) t1) as [[] t2 | |]; simpl; try done.
    destruct (d _ (CMake_build c1) t2) as [[] s1 | |]; simpl; try done.
    destruct (d _ CMake s1) as [c2 s2 | |] eqn:E; simpl; try done.
    destruct (d _ (CMake_install c2) s2) as [[] s3 | |]; simpl; try done.
    intros _. by exists c1, c2, t1, s1, s2.
Qed.

End Succession.

(** ** Succession at the sample drivers *)

Lemma sample_driver_libs_blind : libs_blind sample_driver.
Proof.
  intros X c s v. destruct c; simpl; try done.
  unfold store; simpl. f_equal. f_equal. by apply insert_insert_ne.
Qed.

(** X1 at the counting driver: the build step was reached, so the object
    it ran on came from [CMake(self)] and its configure had returned. *)
Lemma steps_follow_success_witness :
  Ev (CMake_build 0) ∈ (run counting_driver build sample_state).1
  ∧ ∃ s1 s2, counting_driver _ CMake sample_state = Returns 0 s1
             ∧ counting_driver _ (CMake_configure 0) s1 = Returns () s2.
Proof.
  assert (H : Ev (CMake_build 0) ∈ (run counting_driver build sample_state).1).
  { change (Ev (CMake_build 0)
            ∈ [Ev (@CMake nat); Ev (CMake_configure 0); Ev (CMake_build 0)]).
    repeat constructor. }
  split; [exact H |].
  destruct (steps_follow_success counting_driver sample_state 0) as (_ & Hb & _).
  exact (Hb H).
Defined.


(** X3 at the sample driver: [package_info] before or after [build]. *)
Lemma package_info_commutes_witness :
  libs_blind sample_driver
  ∧ returned (run sample_driver build sample_state).2 = true
  ∧ run sample_driver (followed_by package_info build) sample_state
    = run sample_driver (followed_by build package_info) sample_state.
Proof.
  split; [apply sample_driver_libs_blind |]. split; [reflexivity |].
  apply (package_info_commutes sample_driver sample_state build).
  - repeat constructor.
  - apply sample_driver_libs_blind.
  - reflexivity.
Defined.

(** X4 at the counting driver: [build] runs on object 0 and [package] on
    object 2, obtained after the two command lines of [build]. *)
Lemma build_then_package_witness :
  returned (run counting_driver (followed_by build package) sample_state).2 = true
  ∧ map cmake_of (run counting_driver (followed_by build package) sample_state).1
    = [None; Some 0; Some 0; None; Some 2]
  ∧ ∃ c1 c2 t1 s1 s2,
      counting_driver _ CMake sample_state = Returns c1 t1
      ∧ (run counting_driver build sample_state).2 = Returns () s1
      ∧ counting_driver _ CMake s1 = Returns c2 s2
      ∧ (run counting_driver (followed_by build package) sample_state).1
        = [Ev CMake; Ev (CMake_configure c1); Ev (CMake_build c1);
           Ev CMake; Ev (CMake_install c2)].
Proof.
  split; [reflexivity |]. split; [reflexivity |].
  by apply (build_then_package counting_driver sample_state).
Defined.
